(** * apollo-server-koa: the middleware chain of [ApolloServer.applyMiddleware]

    A shallow embedding of [packages/apollo-server-koa/src/ApolloServer.ts].

    The Koa context of a request is a mutable object: it is the state that a
    middleware threads, together with the one server instance.  A middleware
    returns a promise; running it yields the settlement of that promise, the
    state as the middleware left it, and the calls it made to its
    collaborators, in order.

    Three conventions.  The accessors of the context are those of Koa's
    response: [ctx.status =] makes the status explicit, and [ctx.body =] also
    sets status 200 where none is explicit and keeps [Content-Length] in step
    with the body; [ctx.set] and [ctx.request.body =] are plain writes.  An
    exception thrown by a middleware and a rejection of its promise are one
    outcome, as they are for the host that composes the chain; where the
    adapter itself calls a function and chains on the promise it returns, a
    throw before the return and a rejection of the promise are kept apart.  A
    pending promise stays pending for the run at hand: the run is suspended
    there. *)

From Stdlib Require Import ZArith.
From stdpp Require Import base strings gmap list pretty.

Local Open Scope string_scope.
Local Open Scope list_scope.

(** ** JavaScript values *)

(** The primitive values that the adapter reads out of objects typed [any]. *)
Inductive JsValue : Type :=
| JsUndefined
| JsNull
| JsBool (b : bool)
| JsNumber (n : Z)
| JsString (s : string).

(** An object used as a record of named properties. *)
Abbreviation Obj := (gmap string JsValue).

(** ToBoolean of ECMAScript, as [if (v)] and [a && b] apply it. *)
Definition truthy (v : JsValue) : bool :=
  match v with
  | JsUndefined | JsNull => false
  | JsBool b => b
  | JsNumber n => negb (n =? 0)%Z
  | JsString s => negb (String.eqb s "")
  end.

(** Property read [o.k]: a missing property reads as [undefined]. *)
Definition prop (o : Obj) (k : string) : JsValue :=
  default JsUndefined (o !! k).

(** What a [throw] raises or a promise rejects with: an error object, or the
    array of errors that the error formatter returns. *)
Inductive Thrown : Type :=
| ThrownError (e : Obj)
| ThrownErrors (es : list Obj).

(** ** The request context *)

(** [ctx.req], the raw incoming message handed to the collaborators. *)
Record IncomingMessage : Type := mkIncomingMessage {
  req_headers : gmap string string;
  req_stream : string
}.

(** [ctx.body]: a string or an object literal. *)
Inductive Body : Type :=
| BodyString (s : string)
| BodyObject (o : Obj).

(** The fields of the Koa context that the adapter reads or writes. *)
Record Context : Type := mkContext {
  ctx_path : string;                  (* ctx.path *)
  ctx_method : string;                (* ctx.request.method *)
  ctx_req : IncomingMessage;          (* ctx.req *)
  ctx_request_body : option Obj;      (* ctx.request.body *)
  ctx_status : JsValue;               (* ctx.status *)
  ctx_explicitStatus : bool;          (* whether a status has been assigned *)
  ctx_headers : gmap string string;   (* response headers, written by ctx.set *)
  ctx_body : option Body              (* ctx.body *)
}.

(** A promise is known by its handle. *)
Definition Promise : Type := nat.

Inductive PromiseState : Type :=
| PPending
| PFulfilled
| PRejected (reason : Thrown).

(** ** The server instance *)

(** [server.requestOptions], of which the adapter reads two fields. *)
Record RequestOptions : Type := mkRequestOptions {
  formatError : option (Obj -> Obj);
  debug : JsValue
}.

(** The fields of [ApolloServerBase] that the adapter reads or writes, and
    the startup routine's record: how many times [willStart] has run (its n-th
    run returns the promise with handle n, counting from zero) and how each of
    these promises stands. *)
Record ApolloServer : Type := mkApolloServer {
  uploadsConfig : option Obj;
  playgroundOptions : option Obj;
  subscriptionsPath : JsValue;
  requestOptions : RequestOptions;
  graphqlPath : string;
  playgroundPath : option string;
  willStartCalls : nat;
  promises : gmap Promise PromiseState
}.

(** A request sees its own context and the one server instance, which every
    closure of the adapter holds by reference. *)
Record World : Type := mkWorld {
  ctx : Context;
  server : ApolloServer
}.

(** ** Calls to collaborators *)

Inductive Call : Type :=
| CallAwait (p : Promise)
| CallOnHealthCheck
| CallTypeis
| CallProcessFileUploads (uploadsConfig : Obj)
| CallFormatApolloErrors
| CallAccepts
| CallRenderPlaygroundPage (options : Obj)
| CallGraphqlKoa.

(** ** Asynchronous computations *)

(** The settlement of the promise an asynchronous function returns; [Pending]
    when it is suspended at an [await] on a promise that has not settled. *)
Inductive Outcome (A : Type) : Type :=
| Fulfilled (a : A)
| Rejected (reason : Thrown)
| Pending.
Arguments Fulfilled {A} a.
Arguments Rejected {A} reason.
Arguments Pending {A}.

Record Result (A : Type) : Type := mkResult {
  outcome : Outcome A;
  world : World;
  trace : list Call
}.
Arguments mkResult {A} outcome world trace.
Arguments outcome {A} r.
Arguments world {A} r.
Arguments trace {A} r.

Definition M (A : Type) : Type := World -> Result A.

(** The calls [t] were made, then [r] happened. *)
Definition after {A} (t : list Call) (r : Result A) : Result A :=
  mkResult (outcome r) (world r) (t ++ trace r).

Definition ret {A} (a : A) : M A :=
  fun w => mkResult (Fulfilled a) w [].

Definition throw {A} (reason : Thrown) : M A :=
  fun w => mkResult (Rejected reason) w [].

Definition bind {A B} (m : M A) (f : A -> M B) : M B :=
  fun w =>
    let r := m w in
    match outcome r with
    | Fulfilled a => after (trace r) (f a (world r))
    | Rejected reason => mkResult (Rejected reason) (world r) (trace r)
    | Pending => mkResult Pending (world r) (trace r)
    end.

(** [try { m } catch (error) { handler error }] *)
Definition try_catch {A} (m : M A) (handler : Thrown -> M A) : M A :=
  fun w =>
    let r := m w in
    match outcome r with
    | Rejected reason => after (trace r) (handler reason (world r))
    | _ => r
    end.

Declare Scope async_scope.
Delimit Scope async_scope with async.
Notation "x <- m ;; k" := (bind m (fun x => k))
  (at level 100, m at next level, right associativity) : async_scope.
Notation "m ;; k" := (bind m (fun _ => k))
  (at level 100, right associativity) : async_scope.
Local Open Scope async_scope.

Definition gets {A} (f : World -> A) : M A :=
  fun w => mkResult (Fulfilled (f w)) w [].

Definition modify_ctx (f : Context -> Context) : M unit :=
  fun w => mkResult (Fulfilled tt) (mkWorld (f (ctx w)) (server w)) [].

Definition call (c : Call) : M unit :=
  fun w => mkResult (Fulfilled tt) w [c].

(** Awaiting the promise a collaborator returned, given how it settles. *)
Definition settle {A} (o : Outcome A) : M A :=
  fun w => mkResult o w [].

(** *** Writes to the context *)

Definition with_header (k v : string) (c : Context) : Context :=
  mkContext (ctx_path c) (ctx_method c) (ctx_req c) (ctx_request_body c)
            (ctx_status c) (ctx_explicitStatus c)
            (<[k := v]> (ctx_headers c)) (ctx_body c).

(** Koa's [response.body=] for a string or an object: a status that was
    never assigned becomes 200, by assignment; [Content-Length] is the byte
    length of a string body and is removed for an object body, whose length
    is that of its serialization.  What the accessor does to the content
    type is not modelled: the adapter sets the content type before each body
    it assigns. *)
Definition with_body (b : Body) (c : Context) : Context :=
  mkContext (ctx_path c) (ctx_method c) (ctx_req c) (ctx_request_body c)
            (if ctx_explicitStatus c then ctx_status c else JsNumber 200)
            true
            match b with
            | BodyString s =>
                <["Content-Length" := pretty (String.length s)]> (ctx_headers c)
            | BodyObject _ => delete "Content-Length" (ctx_headers c)
            end
            (Some b).

(** Koa's [response.status=] for a status code that goes with a body, as
    are 503 and the codes of upload errors. *)
Definition with_status (s : JsValue) (c : Context) : Context :=
  mkContext (ctx_path c) (ctx_method c) (ctx_req c) (ctx_request_body c)
            s true (ctx_headers c) (ctx_body c).

Definition with_request_body (b : Obj) (c : Context) : Context :=
  mkContext (ctx_path c) (ctx_method c) (ctx_req c) (Some b)
            (ctx_status c) (ctx_explicitStatus c) (ctx_headers c) (ctx_body c).

(** [ctx.set(k, v)] *)
Definition ctx_set (k v : string) : M unit := modify_ctx (with_header k v).
(** [ctx.body = b] *)
Definition assign_body (b : Body) : M unit := modify_ctx (with_body b).
(** [ctx.status = s] *)
Definition assign_status (s : JsValue) : M unit := modify_ctx (with_status s).
(** [ctx.request.body = b] *)
Definition assign_request_body (b : Obj) : M unit :=
  modify_ctx (with_request_body b).

(** A middleware receives the continuation [next]; the context is the state. *)
Definition Middleware : Type := M unit -> M unit.

(** [await p] for a promise of the startup routine. *)
Definition await (p : Promise) : M unit :=
  fun w =>
    mkResult
      match promises (server w) !! p with
      | Some PFulfilled => Fulfilled tt
      | Some (PRejected reason) => Rejected reason
      | Some PPending | None => Pending
      end
      w [CallAwait p].

(** [try { x = await m; return k(x) } catch (error) { handler(error) }] in an
    [async] function.  The promise [k(x)] is returned without being awaited:
    the [catch] clause does not see its rejection. *)
Definition try_await_return {A B}
    (m : M A) (k : A -> M B) (handler : Thrown -> M B) : M B :=
  fun w =>
    let r := m w in
    match outcome r with
    | Fulfilled a => after (trace r) (k a (world r))
    | Rejected reason => after (trace r) (handler reason (world r))
    | Pending => mkResult Pending (world r) (trace r)
    end.

(** What a call of a function typed [(ctx) => Promise<any>] comes to: it
    throws before it returns, or it returns a promise, which settles or stays
    pending. *)
Inductive Invocation : Type :=
| Throws (reason : Thrown)
| Returns (promise : Outcome unit).

(** The call, the state it leaves and the calls it made. *)
Record Invoked : Type := mkInvoked {
  invocation : Invocation;
  invoked_world : World;
  invoked_trace : list Call
}.

Definition Callback : Type := World -> Invoked.

(** [f(ctx)] where the caller goes on with the promise: a throw leaves the
    caller at once. *)
Definition invoke (f : Callback) : M (Outcome unit) :=
  fun w =>
    let i := f w in
    mkResult
      match invocation i with
      | Throws reason => Rejected reason
      | Returns promise => Fulfilled promise
      end
      (invoked_world i) (invoked_trace i).

(** [error.k] on a caught value; an array has no such property. *)
Definition error_prop (error : Thrown) (k : string) : JsValue :=
  match error with
  | ThrownError e => prop e k
  | ThrownErrors _ => JsUndefined
  end.

(** ** Collaborators *)

(** The second argument of [formatApolloErrors]. *)
Record FormatOptions : Type := mkFormatOptions {
  formatter : option (Obj -> Obj);
  format_debug : JsValue
}.

(** The imported functions and the inherited methods, none of them defined in
    this file of the repository.  An argument left out of a call is
    [undefined], here [None]. *)
Class Collaborators : Type := {
  (* typeis(req, types): the matching type, or false or null *)
  typeis : IncomingMessage -> list string -> JsValue;
  (* processFileUploads(req, config): how the returned promise settles *)
  processFileUploads : IncomingMessage -> Obj -> Outcome Obj;
  formatApolloErrors : list Thrown -> FormatOptions -> list Obj;
  (* accepts(req).types() *)
  accepts_types : IncomingMessage -> list string;
  renderPlaygroundPage : Obj -> string;
  (* graphqlKoa(options), a middleware *)
  graphqlKoa : M Obj -> Middleware;
  (* super.graphQLServerOptions({ ctx }) *)
  graphQLServerOptions : M Obj;
  corsMiddleware : option Obj -> Middleware;
  bodyParser : option Obj -> Middleware
}.

(** [cors?: Options | boolean], [bodyParserConfig?: Options | boolean] *)
Inductive Policy : Type :=
| Unset
| Flag (b : bool)
| Options (o : Obj).

Record ServerRegistration : Type := mkServerRegistration {
  reg_path : option string;
  reg_playgroundPath : option string;
  reg_cors : Policy;
  reg_bodyParserConfig : Policy;
  reg_onHealthCheck : option Callback;
  reg_disableHealthCheck : option bool
}.

(** The host application: [app.use(fn)] pushes onto [app.middleware]. *)
Record Koa : Type := mkKoa { middleware : list Middleware }.

Definition use (fn : Middleware) (app : Koa) : Koa :=
  mkKoa (middleware app ++ [fn]).

(** ** The adapter *)

Section Adapter.

Context `{collaborators : Collaborators}.

(** [fileUploadMiddleware(uploadsConfig, server)]; [server] is the instance
    of the world. *)
Definition fileUploadMiddleware (uploadsConfig : Obj) : Middleware :=
  fun next =>
    req <- gets (fun w => ctx_req (ctx w));;
    call CallTypeis;;
    if truthy (typeis req ["multipart/form-data"]) then
      try_await_return
        (call (CallProcessFileUploads uploadsConfig);;
         settle (processFileUploads req uploadsConfig))
        (fun body => assign_request_body body;; next)
        (fun error =>
           (if truthy (error_prop error "status")
               && truthy (error_prop error "expose")
            then assign_status (error_prop error "status")
            else ret tt);;
           options <- gets (fun w => requestOptions (server w));;
           call CallFormatApolloErrors;;
           throw (ThrownErrors
                    (formatApolloErrors [error]
                       (mkFormatOptions (formatError options) (debug options)))))
    else next.

Definition middlewareFromPath (path : string) (middleware : Middleware)
  : Middleware :=
  fun next w =>
    if String.eqb (ctx_path (ctx w)) path then middleware next w else next w.

Definition createGraphQLServerOptions : M Obj := graphQLServerOptions.

Definition supportsSubscriptions : bool := true.

Definition supportsUploads : bool := true.

(** [this.willStart()]: one more run of the startup routine, and the promise
    it returns. *)
Definition willStart (this : ApolloServer) : Promise * ApolloServer :=
  (willStartCalls this,
   mkApolloServer (uploadsConfig this) (playgroundOptions this)
     (subscriptionsPath this) (requestOptions this) (graphqlPath this)
     (playgroundPath this) (S (willStartCalls this)) (promises this)).

(** The first middleware of [applyMiddleware]:
    [async (_ctx, next) => { await promiseWillStart; return next(); }] *)
Definition startGate (promiseWillStart : Promise) : Middleware :=
  fun next => await promiseWillStart;; next.

Definition healthPath : string := "/.well-known/apollo/server-health".

Definition passBody : Body := BodyObject {[ "status" := JsString "pass" ]}.
Definition failBody : Body := BodyObject {[ "status" := JsString "fail" ]}.

(** The health-check middleware, which takes no continuation.  It is not
    [async]: [onHealthCheck(ctx)] is called first, and [.then] and [.catch]
    are chained on the promise that the call returns. *)
Definition healthCheck (onHealthCheck : option Callback) : Middleware :=
  fun _ =>
    ctx_set "Content-Type" "application/health+json";;
    match onHealthCheck with
    | Some check =>
        call CallOnHealthCheck;;
        promise <- invoke check;;
        try_catch
          (settle promise;; assign_body passBody)
          (fun _ => assign_status (JsNumber 503);; assign_body failBody)
    | None => assign_body passBody
    end.

(** [x === 'text/html' || x === 'application/json'] *)
Definition negotiable (x : string) : bool :=
  String.eqb x "text/html" || String.eqb x "application/json".

(** [types.find(...) === 'text/html'] *)
Definition prefersHTML (types : list string) : bool :=
  match find negotiable types with
  | Some x => String.eqb x "text/html"
  | None => false
  end.

(** The explorer page goes out: content type, rendered page, body. *)
Definition renderPlayground (playgroundRenderPageOptions : Obj) : M unit :=
  ctx_set "Content-Type" "text/html";;
  call (CallRenderPlaygroundPage playgroundRenderPageOptions);;
  assign_body (BodyString (renderPlaygroundPage playgroundRenderPageOptions)).

(** [graphqlKoa(() => this.createGraphQLServerOptions(ctx))(ctx, next)] *)
Definition runGraphqlKoa (next : M unit) : M unit :=
  fun w => after [CallGraphqlKoa] (graphqlKoa createGraphQLServerOptions next w).

(** The middleware that serves the execution path. *)
Definition dispatcher (playgroundRenderPageOptions : option Obj)
    (path playgroundPath : string) : Middleware :=
  fun next =>
    method <- gets (fun w => ctx_method (ctx w));;
    match playgroundRenderPageOptions with
    | Some options =>
        if String.eqb path playgroundPath && String.eqb method "GET" then
          req <- gets (fun w => ctx_req (ctx w));;
          call CallAccepts;;
          if prefersHTML (accepts_types req)
          then renderPlayground options
          else runGraphqlKoa next
        else runGraphqlKoa next
    | None => runGraphqlKoa next
    end.

(** The middleware that serves an explorer path of its own. *)
Definition explorer (playgroundRenderPageOptions : Obj) : Middleware :=
  fun _ => renderPlayground playgroundRenderPageOptions.

(** [if (!path) path = '/graphql']: the empty string is falsy too. *)
Definition pathOr (path : option string) (fallback : string) : string :=
  match path with
  | Some p => if String.eqb p "" then fallback else p
  | None => fallback
  end.

(** [{ endpoint: path, subscriptionEndpoint: this.subscriptionsPath,
       ...this.playgroundOptions }]: the spread properties win. *)
Definition renderPageOptions (this : ApolloServer) (path : string)
  : option Obj :=
  match playgroundOptions this with
  | Some options =>
      Some (options ∪
            <["endpoint" := JsString path]>
              (<["subscriptionEndpoint" := subscriptionsPath this]> ∅))
  | None => None
  end.

(** The argument of [corsMiddleware(cors)] and [bodyParser(bodyParserConfig)]
    once the booleans are out of the way. *)
Definition optionsOf (policy : Policy) : option Obj :=
  match policy with
  | Options o => Some o
  | Unset | Flag _ => None
  end.

Definition isTrue (policy : Policy) : bool :=
  match policy with Flag true => true | _ => false end.

Definition isFalse (policy : Policy) : bool :=
  match policy with Flag false => true | _ => false end.

(** The state of a registration: the host application and the server. *)
Record Setup : Type := mkSetup {
  app : Koa;
  this : ApolloServer
}.

Definition applyMiddleware (reg : ServerRegistration) (s : Setup) : Setup :=
  let path := pathOr (reg_path reg) "/graphql" in
  let playgroundPath := pathOr (reg_playgroundPath reg) path in
  let '(promiseWillStart, this1) := willStart (this s) in
  let app1 := use (middlewareFromPath path (startGate promiseWillStart)) (app s) in
  let app2 :=
    if negb (default false (reg_disableHealthCheck reg)) then
      use (middlewareFromPath healthPath (healthCheck (reg_onHealthCheck reg)))
          app1
    else app1 in
  let uploadsMiddleware :=
    match uploadsConfig this1 with
    | Some config => Some (fileUploadMiddleware config)
    | None => None
    end in
  let this2 :=
    mkApolloServer (uploadsConfig this1) (playgroundOptions this1)
      (subscriptionsPath this1) (requestOptions this1) path
      (Some playgroundPath) (willStartCalls this1) (promises this1) in
  let app3 :=
    if isTrue (reg_cors reg) then
      use (middlewareFromPath path (corsMiddleware None)) app2
    else if negb (isFalse (reg_cors reg)) then
      use (middlewareFromPath path (corsMiddleware (optionsOf (reg_cors reg))))
          app2
    else app2 in
  let app4 :=
    if isTrue (reg_bodyParserConfig reg) then
      use (middlewareFromPath path (bodyParser None)) app3
    else if negb (isFalse (reg_bodyParserConfig reg)) then
      use (middlewareFromPath path
             (bodyParser (optionsOf (reg_bodyParserConfig reg))))
          app3
    else app3 in
  let app5 :=
    match uploadsMiddleware with
    | Some upload => use (middlewareFromPath path upload) app4
    | None => app4
    end in
  let playgroundRenderPageOptions := renderPageOptions this2 path in
  let app6 :=
    use (middlewareFromPath path
           (dispatcher playgroundRenderPageOptions path playgroundPath))
        app5 in
  let app7 :=
    match playgroundRenderPageOptions with
    | Some options =>
        if negb (String.eqb path playgroundPath) then
          use (middlewareFromPath playgroundPath (explorer options)) app6
        else app6
    | None => app6
    end in
  mkSetup app7 this2.

(** [registerServer()] *)
Definition registerServer {A} : M A :=
  throw (ThrownError {[ "message" := JsString
    "Please use server.applyMiddleware instead of registerServer. This warning will be removed in the next release" ]}).

End Adapter.

(** ** What the statements below speak of *)

(** The response that carries the explorer page: content type [text/html],
    the rendered page as body, one call to the renderer and no other. *)
Definition explorerPage `{Collaborators} (options : Obj) (w : World)
  : Result unit :=
  mkResult (Fulfilled tt)
    (mkWorld
       (with_body (BodyString (renderPlaygroundPage options))
          (with_header "Content-Type" "text/html" (ctx w)))
       (server w))
    [CallRenderPlaygroundPage options].

(** In the specification's words: in the ranked list of the accept header,
    the first type among [text/html] and [application/json] is [text/html]. *)
Definition firstAcceptableIsHTML (types : list string) : Prop :=
  exists before rest,
    types = before ++ "text/html" :: rest
    /\ ("text/html" ∉ before)
    /\ ("application/json" ∉ before).

(** The world once the health check has set its content type: the one the
    callback starts from. *)
Definition announced (w : World) : World :=
  mkWorld (with_header "Content-Type" "application/health+json" (ctx w))
          (server w).

(** A middleware wrapped by the path gate. *)
Definition pathGated (fn : Middleware) : Prop :=
  exists path inner, fn = middlewareFromPath path inner.

(** What a policy value registers on the execution path: nothing for
    [false], and otherwise the middleware made from the options, where [true]
    and a value left out both come to no options. *)
Definition policyStage (path : string) (make : option Obj -> Middleware)
    (policy : Policy) : list Middleware :=
  match policy with
  | Flag false => []
  | Flag true | Unset => [middlewareFromPath path (make None)]
  | Options o => [middlewareFromPath path (make (Some o))]
  end.

(** ** Sample collaborators and requests *)

Module Sample.

Definition multipart : string := "multipart/form-data".

Definition unprocessable : Obj :=
  {[ "status" := JsNumber 422; "expose" := JsBool true;
     "message" := JsString "Unprocessable" ]}.

#[local] Instance collaborators : Collaborators := {|
  typeis req types :=
    match req_headers req !! "content-type" with
    | Some t => if bool_decide (t ∈ types) then JsString t else JsBool false
    | None => JsNull
    end;
  processFileUploads req config :=
    if String.eqb (req_stream req) "" then Rejected (ThrownError unprocessable)
    else Fulfilled {[ "operations" := JsString (req_stream req) ]};
  formatApolloErrors errors options :=
    map (fun error =>
           match error, formatter options with
           | ThrownError e, Some format => format e
           | ThrownError e, None => e
           | ThrownErrors _, _ => ∅
           end) errors;
  accepts_types req :=
    match req_headers req !! "accept" with
    | Some "application/json, text/html" => ["application/json"; "text/html"]
    | Some t => [t]
    | None => ["*/*"]
    end;
  renderPlaygroundPage options :=
    match options !! "endpoint" with
    | Some (JsString endpoint) => "<html>" +:+ endpoint +:+ "</html>"
    | _ => "<html></html>"
    end;
  graphqlKoa options next :=
    bind options (fun _ => assign_body (BodyString "{}"));
  graphQLServerOptions := ret ∅;
  corsMiddleware options next :=
    bind (ctx_set "Access-Control-Allow-Origin" "*") (fun _ => next);
  bodyParser options next := next
|}.

Definition request (path method : string) (headers : gmap string string)
  : Context :=
  mkContext path method (mkIncomingMessage headers "") None (JsNumber 404)
            false ∅ None.

Definition apollo : ApolloServer :=
  mkApolloServer (Some ∅) (Some ∅) (JsString "/subscriptions")
    (mkRequestOptions None (JsBool false)) "/graphql" None 0 ∅.

Definition world (c : Context) : World := mkWorld c apollo.

Definition jsonFirstGet : World :=
  world (request "/graphql" "GET"
           {[ "accept" := "application/json, text/html" ]}).

Definition htmlGet : World :=
  world (request "/graphql" "GET" {[ "accept" := "text/html" ]}).

Definition registration : ServerRegistration :=
  mkServerRegistration None (Some "/playground") Unset Unset None None.

Definition setup : Setup := mkSetup (mkKoa []) apollo.

Definition next : M unit := assign_status (JsNumber 204).

Definition down : Thrown :=
  ThrownError {[ "message" := JsString "database is down" ]}.

(** A callback whose promise rejects. *)
Definition rejecting : Callback :=
  fun w => mkInvoked (Returns (Rejected down)) w [].

(** A callback that throws before it returns a promise. *)
Definition throwing : Callback :=
  fun w => mkInvoked (Throws down) w [].

End Sample.

(** ** More sample requests, and an upload processor of three minds *)

Module Cases.

Definition internal : Obj :=
  {[ "status" := JsNumber 500; "expose" := JsBool false;
     "message" := JsString "Internal" ]}.

(** As [Sample.collaborators], but the upload processor stays pending on the
    stream [pending] and fails without an exposable status on [internal]. *)
#[local] Instance collaborators : Collaborators := {|
  typeis := typeis (Collaborators := Sample.collaborators);
  processFileUploads req config :=
    if String.eqb (req_stream req) "pending" then Pending
    else if String.eqb (req_stream req) "internal"
         then Rejected (ThrownError internal)
         else Fulfilled {[ "operations" := JsString (req_stream req) ]};
  formatApolloErrors :=
    formatApolloErrors (Collaborators := Sample.collaborators);
  accepts_types := accepts_types (Collaborators := Sample.collaborators);
  renderPlaygroundPage :=
    renderPlaygroundPage (Collaborators := Sample.collaborators);
  graphqlKoa := graphqlKoa (Collaborators := Sample.collaborators);
  graphQLServerOptions :=
    graphQLServerOptions (Collaborators := Sample.collaborators);
  corsMiddleware := corsMiddleware (Collaborators := Sample.collaborators);
  bodyParser := bodyParser (Collaborators := Sample.collaborators)
|}.

(** A multipart POST to the execution path with the given stream. *)
Definition upload (stream : string) : World :=
  mkWorld
    (mkContext "/graphql" "POST"
       (mkIncomingMessage {[ "content-type" := Sample.multipart ]} stream)
       None (JsNumber 404) false ∅ None)
    Sample.apollo.

Definition jsonPost : World :=
  Sample.world
    (Sample.request "/graphql" "POST" {[ "content-type" := "application/json" ]}).

Definition elsewhere : World :=
  Sample.world (Sample.request "/favicon.ico" "GET" ∅).

Definition failingNext : M unit :=
  throw (ThrownError {[ "message" := JsString "resolver failed" ]}).

Definition stalled : Callback :=
  fun w => mkInvoked (Returns Pending) w [].

(** A server without explorer. *)
Definition headless : ApolloServer :=
  mkApolloServer None None JsUndefined
    (mkRequestOptions None JsUndefined) "/graphql" None 0 ∅.

End Cases.

(** ** Lemmas on the monad *)

Lemma after_nil {A} (r : Result A) : after [] r = r.
Proof. destruct r; reflexivity. Qed.

Lemma after_after {A} (t u : list Call) (r : Result A) :
  after t (after u r) = after (t ++ u) r.
Proof. unfold after; simpl. by rewrite app_assoc. Qed.

Lemma bind_gets {A B} (f : World -> A) (k : A -> M B) (w : World) :
  bind (gets f) k w = k (f w) w.
Proof. unfold bind, gets; simpl. apply after_nil. Qed.

Lemma bind_call {B} (c : Call) (k : unit -> M B) (w : World) :
  bind (call c) k w = after [c] (k tt w).
Proof. reflexivity. Qed.

Lemma bind_modify_ctx {B} (f : Context -> Context) (k : unit -> M B) w :
  bind (modify_ctx f) k w = k tt (mkWorld (f (ctx w)) (server w)).
Proof. unfold bind, modify_ctx; simpl. apply after_nil. Qed.

Lemma bind_fulfilled {A B} (m : M A) (k : A -> M B) (w : World) (a : A) :
  outcome (m w) = Fulfilled a ->
  bind m k w = after (trace (m w)) (k a (world (m w))).
Proof. intros Hm. unfold bind. by rewrite Hm. Qed.

Lemma bind_rejected {A B} (m : M A) (k : A -> M B) (w : World) reason :
  outcome (m w) = Rejected reason ->
  bind m k w = mkResult (Rejected reason) (world (m w)) (trace (m w)).
Proof. intros Hm. unfold bind. by rewrite Hm. Qed.

Lemma bind_pending {A B} (m : M A) (k : A -> M B) (w : World) :
  outcome (m w) = Pending ->
  bind m k w = mkResult Pending (world (m w)) (trace (m w)).
Proof. intros Hm. unfold bind. by rewrite Hm. Qed.

(** ** The path gate *)

Lemma middlewareFromPath_match (path : string) (inner : Middleware)
    (next : M unit) (w : World) :
  ctx_path (ctx w) = path ->
  middlewareFromPath path inner next w = inner next w.
Proof.
  intros Hpath. unfold middlewareFromPath.
  by rewrite Hpath, String.eqb_refl.
Qed.

Lemma middlewareFromPath_mismatch (path : string) (inner : Middleware)
    (next : M unit) (w : World) :
  ctx_path (ctx w) <> path ->
  middlewareFromPath path inner next w = next w.
Proof.
  intros Hpath. unfold middlewareFromPath.
  apply String.eqb_neq in Hpath. by rewrite Hpath.
Qed.

(** C6. The path gate compares the request's path with the target by exact
    string equality.  On a match the wrapper is the inner middleware, run with
    the same continuation on the same context.  On a mismatch it is the
    continuation and nothing else, whatever the inner middleware is. *)
Theorem middlewareFromPath_gate (path : string) (inner : Middleware)
    (next : M unit) (w : World) :
  (ctx_path (ctx w) = path ->
   middlewareFromPath path inner next w = inner next w)
  /\ (ctx_path (ctx w) <> path ->
      middlewareFromPath path inner next w = next w).
Proof.
  split.
  - apply middlewareFromPath_match.
  - apply middlewareFromPath_mismatch.
Qed.

(** ** Content negotiation *)

Lemma negotiable_spec (x : string) :
  negotiable x = true <-> x = "text/html" \/ x = "application/json".
Proof.
  unfold negotiable. rewrite orb_true_iff, !String.eqb_eq. tauto.
Qed.

Lemma prefersHTML_cons (x : string) (types : list string) :
  prefersHTML (x :: types) =
  if negotiable x then String.eqb x "text/html" else prefersHTML types.
Proof. unfold prefersHTML; simpl. by destruct (negotiable x). Qed.

(** The test of the code is the condition of the specification. *)
Lemma prefersHTML_spec (types : list string) :
  prefersHTML types = true <-> firstAcceptableIsHTML types.
Proof.
  induction types as [|x types IH].
  - split; [discriminate|].
    intros (before & rest & Heq & _). by destruct before.
  - rewrite prefersHTML_cons.
    destruct (negotiable x) eqn:Hx.
    + apply negotiable_spec in Hx. rewrite String.eqb_eq. split.
      * intros ->. exists [], types. repeat split; apply not_elem_of_nil.
      * intros (before & rest & Heq & Hhtml & Hjson).
        destruct before as [|y before]; injection Heq as -> Heq; [done|].
        apply not_elem_of_cons in Hhtml as [Hhtml _].
        apply not_elem_of_cons in Hjson as [Hjson _].
        by destruct Hx.
    + assert (x <> "text/html" /\ x <> "application/json") as [Hh Hj].
      { split; intros Heq; rewrite (proj2 (negotiable_spec x)) in Hx;
          auto; discriminate. }
      rewrite IH. split.
      * intros (before & rest & -> & Hhtml & Hjson).
        exists (x :: before), rest.
        split; [done|]. split; apply not_elem_of_cons; auto.
      * intros (before & rest & Heq & Hhtml & Hjson).
        destruct before as [|y before]; injection Heq as -> Heq; [done|].
        apply not_elem_of_cons in Hhtml as [_ Hhtml].
        apply not_elem_of_cons in Hjson as [_ Hjson].
        by exists before, rest.
Qed.

Section Dispatcher.

Context `{collaborators : Collaborators}.

Lemma renderPlayground_page (options : Obj) (w : World) :
  renderPlayground options w = explorerPage options w.
Proof. reflexivity. Qed.

Lemma dispatcher_unconfigured (path playgroundPath : string)
    (next : M unit) (w : World) :
  dispatcher None path playgroundPath next w = runGraphqlKoa next w.
Proof. unfold dispatcher. by rewrite bind_gets. Qed.

Lemma dispatcher_elsewhere (options : option Obj) (path playgroundPath : string)
    (next : M unit) (w : World) :
  path <> playgroundPath ->
  dispatcher options path playgroundPath next w = runGraphqlKoa next w.
Proof.
  intros Hpath. unfold dispatcher. rewrite bind_gets.
  apply String.eqb_neq in Hpath. rewrite Hpath.
  by destruct options.
Qed.

Lemma dispatcher_not_get (options : option Obj) (path playgroundPath : string)
    (next : M unit) (w : World) :
  ctx_method (ctx w) <> "GET" ->
  dispatcher options path playgroundPath next w = runGraphqlKoa next w.
Proof.
  intros Hmethod. unfold dispatcher. rewrite bind_gets.
  apply String.eqb_neq in Hmethod. rewrite Hmethod, andb_false_r.
  by destruct options.
Qed.

Lemma dispatcher_get (options : Obj) (path : string)
    (next : M unit) (w : World) :
  ctx_method (ctx w) = "GET" ->
  dispatcher (Some options) path path next w =
  after [CallAccepts]
    (if prefersHTML (accepts_types (ctx_req (ctx w)))
     then explorerPage options w
     else runGraphqlKoa next w).
Proof.
  intros Hmethod. unfold dispatcher.
  rewrite bind_gets, Hmethod, !String.eqb_refl. simpl.
  rewrite bind_gets, bind_call.
  by destruct (prefersHTML _).
Qed.

End Dispatcher.

(** C1. A request to the execution path, with the explorer configured on that
    same path.  The registered dispatcher answers with the explorer page, with
    content type [text/html] and without running the continuation or the
    execution engine, if and only if the method is GET and the first type of
    the accept header's ranked list among [text/html] and [application/json]
    is [text/html].  In every other case it hands the request to the execution
    engine: a GET whose first such type is [application/json] or that has
    none, and every other method. *)
Theorem dispatcher_negotiates `{Collaborators} (options : Obj) (path : string)
    (next : M unit) (w : World) :
  ctx_path (ctx w) = path ->
  let stage := middlewareFromPath path (dispatcher (Some options) path path) in
  let types := accepts_types (ctx_req (ctx w)) in
  let engine := graphqlKoa createGraphQLServerOptions next w in
  (ctx_method (ctx w) = "GET" /\ firstAcceptableIsHTML types
   <-> stage next w = after [CallAccepts] (explorerPage options w))
  /\ (ctx_method (ctx w) = "GET" -> ~ firstAcceptableIsHTML types ->
      stage next w = after [CallAccepts; CallGraphqlKoa] engine)
  /\ (ctx_method (ctx w) <> "GET" ->
      stage next w = after [CallGraphqlKoa] engine).
Proof.
  intros Hpath stage types engine. subst stage engine.
  rewrite (middlewareFromPath_match _ _ _ _ Hpath).
  assert (Hget : ctx_method (ctx w) = "GET" -> ~ firstAcceptableIsHTML types ->
                 dispatcher (Some options) path path next w
                 = after [CallAccepts; CallGraphqlKoa]
                     (graphqlKoa createGraphQLServerOptions next w)).
  { intros Hmethod Hnot. rewrite dispatcher_get by done.
    rewrite <- prefersHTML_spec in Hnot. fold types.
    destruct (prefersHTML types); [done|].
    unfold runGraphqlKoa. by rewrite after_after. }
  split; [|split]; [|done|by apply dispatcher_not_get].
  split.
  - intros [Hmethod Hfirst]. rewrite dispatcher_get by done.
    apply prefersHTML_spec in Hfirst. fold types. by rewrite Hfirst.
  - intros Hpage.
    destruct (decide (ctx_method (ctx w) = "GET")) as [Hmethod|Hmethod].
    + split; [done|]. apply prefersHTML_spec.
      destruct (prefersHTML types) eqn:Hprefers; [done|].
      rewrite Hget in Hpage; [discriminate Hpage|done|].
      rewrite <- prefersHTML_spec. by rewrite Hprefers.
    + rewrite dispatcher_not_get in Hpage by done. discriminate Hpage.
Qed.

(** JSON ranked before HTML, at the sample collaborators: the engine answers. *)
Example json_first_engine :
  middlewareFromPath "/graphql"
    (dispatcher (collaborators := Sample.collaborators)
       (Some ∅) "/graphql" "/graphql")
    Sample.next Sample.jsonFirstGet
  = after [CallAccepts; CallGraphqlKoa]
      (graphqlKoa (Collaborators := Sample.collaborators)
         (createGraphQLServerOptions (collaborators := Sample.collaborators))
         Sample.next Sample.jsonFirstGet).
Proof. reflexivity. Qed.

Lemma dispatcher_negotiates_witness :
  middlewareFromPath "/graphql"
    (dispatcher (collaborators := Sample.collaborators)
       (Some ∅) "/graphql" "/graphql")
    Sample.next Sample.htmlGet
  = after [CallAccepts]
      (explorerPage (H := Sample.collaborators) ∅ Sample.htmlGet).
Proof.
  apply (dispatcher_negotiates (H := Sample.collaborators)
           ∅ "/graphql" Sample.next Sample.htmlGet eq_refl).
  split; [reflexivity|].
  exists [], []. repeat split; apply not_elem_of_nil.
Defined.

(** JSON ranked before HTML: the engine is asked, although HTML is accepted. *)
Example json_first_delegates :
  dispatcher (collaborators := Sample.collaborators)
    (Some ∅) "/graphql" "/graphql" Sample.next Sample.jsonFirstGet
  = mkResult (Fulfilled tt)
      (mkWorld (with_body (BodyString "{}") (ctx Sample.jsonFirstGet))
               Sample.apollo)
      [CallAccepts; CallGraphqlKoa].
Proof. reflexivity. Qed.

(** A POST is for the engine, whatever it accepts. *)
Example post_delegates :
  dispatcher (collaborators := Sample.collaborators)
    (Some ∅) "/graphql" "/graphql" Sample.next
    (Sample.world
       (Sample.request "/graphql" "POST" {[ "accept" := "text/html" ]}))
  = mkResult (Fulfilled tt)
      (mkWorld
         (with_body (BodyString "{}")
            (Sample.request "/graphql" "POST" {[ "accept" := "text/html" ]}))
         Sample.apollo)
      [CallGraphqlKoa].
Proof. reflexivity. Qed.

(** C9. With the explorer on a path of its own, the dispatcher never renders
    it: every request to the execution path, whatever its method and its
    accept header, goes to the execution engine, and the accept header is not
    even parsed. *)
Theorem dispatcher_explorer_elsewhere `{Collaborators}
    (options : option Obj) (path playgroundPath : string)
    (next : M unit) (w : World) :
  path <> playgroundPath ->
  ctx_path (ctx w) = path ->
  middlewareFromPath path (dispatcher options path playgroundPath) next w
  = after [CallGraphqlKoa] (graphqlKoa createGraphQLServerOptions next w).
Proof.
  intros Hdiffer Hpath.
  rewrite middlewareFromPath_match by done.
  by rewrite dispatcher_elsewhere.
Qed.

Lemma dispatcher_explorer_elsewhere_witness :
  middlewareFromPath "/graphql"
    (dispatcher (collaborators := Sample.collaborators)
       (Some ∅) "/graphql" "/playground")
    Sample.next Sample.htmlGet
  = after [CallGraphqlKoa]
      (graphqlKoa (Collaborators := Sample.collaborators)
         (createGraphQLServerOptions (collaborators := Sample.collaborators))
         Sample.next Sample.htmlGet).
Proof.
  apply (dispatcher_explorer_elsewhere (H := Sample.collaborators)
           (Some ∅) "/graphql" "/playground" Sample.next Sample.htmlGet).
  - discriminate.
  - reflexivity.
Defined.

(** ** Registration *)

Section Registration.

Context `{collaborators : Collaborators}.

Lemma middleware_use (fn : Middleware) (host : Koa) :
  middleware (use fn host) = middleware host ++ [fn].
Proof. reflexivity. Qed.

Lemma policyStage_use (path : string) (make : option Obj -> Middleware)
    (policy : Policy) (host : Koa) :
  middleware
    (if isTrue policy then use (middlewareFromPath path (make None)) host
     else if negb (isFalse policy)
          then use (middlewareFromPath path (make (optionsOf policy))) host
          else host)
  = middleware host ++ policyStage path make policy.
Proof.
  destruct policy as [|[]|o]; simpl; try reflexivity.
  by rewrite app_nil_r.
Qed.

Lemma renderPageOptions_fields (this1 : ApolloServer) (path : string)
    (graphql : string) (playground : option string) (calls : nat) :
  renderPageOptions
    (mkApolloServer (uploadsConfig this1) (playgroundOptions this1)
       (subscriptionsPath this1) (requestOptions this1) graphql playground
       calls (promises this1)) path
  = renderPageOptions this1 path.
Proof. reflexivity. Qed.

(** The stages that one registration adds to the host application. *)
Lemma applyMiddleware_stages (reg : ServerRegistration) (s : Setup) :
  let path := pathOr (reg_path reg) "/graphql" in
  let playgroundPath := pathOr (reg_playgroundPath reg) path in
  let options := renderPageOptions (this s) path in
  middleware (app (applyMiddleware reg s))
  = middleware (app s)
    ++ [middlewareFromPath path (startGate (willStartCalls (this s)))]
    ++ (if default false (reg_disableHealthCheck reg) then []
        else [middlewareFromPath healthPath
                (healthCheck (reg_onHealthCheck reg))])
    ++ policyStage path corsMiddleware (reg_cors reg)
    ++ policyStage path bodyParser (reg_bodyParserConfig reg)
    ++ match uploadsConfig (this s) with
       | Some config => [middlewareFromPath path (fileUploadMiddleware config)]
       | None => []
       end
    ++ [middlewareFromPath path (dispatcher options path playgroundPath)]
    ++ match options with
       | Some o =>
           if String.eqb path playgroundPath then []
           else [middlewareFromPath playgroundPath (explorer o)]
       | None => []
       end.
Proof.
  intros path explorerPath options.
  unfold applyMiddleware, willStart.
  fold path. fold explorerPath.
  cbn [app this uploadsConfig playgroundOptions subscriptionsPath
       requestOptions willStartCalls promises].
  rewrite renderPageOptions_fields. fold options.
  assert (Hlast : forall host : Koa,
    middleware
      match options with
      | Some o =>
          if negb (String.eqb path explorerPath)
          then use (middlewareFromPath explorerPath (explorer o)) host
          else host
      | None => host
      end
    = middleware host
      ++ match options with
         | Some o =>
             if String.eqb path explorerPath then []
             else [middlewareFromPath explorerPath (explorer o)]
         | None => []
         end).
  { intros host. destruct options as [o|]; [|by rewrite app_nil_r].
    destruct (String.eqb path explorerPath); simpl;
      [by rewrite app_nil_r|done]. }
  rewrite Hlast, middleware_use.
  assert (Hupload : forall host : Koa,
    middleware
      match
        match uploadsConfig (this s) with
        | Some config => Some (fileUploadMiddleware config)
        | None => None
        end
      with
      | Some upload => use (middlewareFromPath path upload) host
      | None => host
      end
    = middleware host
      ++ match uploadsConfig (this s) with
         | Some config =>
             [middlewareFromPath path (fileUploadMiddleware config)]
         | None => []
         end).
  { intros host. destruct (uploadsConfig (this s)); [done|].
    by rewrite app_nil_r. }
  rewrite Hupload, !policyStage_use.
  destruct (default false (reg_disableHealthCheck reg)); simpl;
    rewrite ?middleware_use, <- ?app_assoc; reflexivity.
Qed.

End Registration.

(** C5. [applyMiddleware] adds its stages to the host application in one
    fixed order: the initialization gate; the health check unless disabled;
    CORS and the body parser, each by its policy; the upload interceptor if
    uploads are configured; the dispatcher; and last the explorer's own
    handler, which is there only when the explorer path differs from the
    execution path.  Every one of them is wrapped by the path gate. *)
Theorem applyMiddleware_order `{Collaborators}
    (reg : ServerRegistration) (s : Setup) :
  let path := pathOr (reg_path reg) "/graphql" in
  let explorerPath := pathOr (reg_playgroundPath reg) path in
  let options := renderPageOptions (this s) path in
  let gate := [middlewareFromPath path (startGate (willStartCalls (this s)))] in
  let health :=
    if default false (reg_disableHealthCheck reg) then []
    else [middlewareFromPath healthPath (healthCheck (reg_onHealthCheck reg))] in
  let cors := policyStage path corsMiddleware (reg_cors reg) in
  let parser := policyStage path bodyParser (reg_bodyParserConfig reg) in
  let upload :=
    match uploadsConfig (this s) with
    | Some config => [middlewareFromPath path (fileUploadMiddleware config)]
    | None => []
    end in
  let dispatch :=
    [middlewareFromPath path (dispatcher options path explorerPath)] in
  let explore :=
    match options with
    | Some o =>
        if String.eqb path explorerPath then []
        else [middlewareFromPath explorerPath (explorer o)]
    | None => []
    end in
  let added := gate ++ health ++ cors ++ parser ++ upload ++ dispatch ++ explore in
  middleware (app (applyMiddleware reg s)) = middleware (app s) ++ added
  /\ Forall pathGated added
  /\ (explore <> [] -> path <> explorerPath).
Proof.
  intros path explorerPath options gate health cors parser upload dispatch
    explore added.
  split; [apply applyMiddleware_stages|]. split.
  - subst added gate health cors parser upload dispatch explore.
    rewrite !Forall_app. repeat split.
    + repeat constructor. by eexists _, _.
    + destruct (default false _); repeat constructor. by eexists _, _.
    + destruct (reg_cors reg) as [|[]|o]; repeat constructor;
        by eexists _, _.
    + destruct (reg_bodyParserConfig reg) as [|[]|o]; repeat constructor;
        by eexists _, _.
    + destruct (uploadsConfig (this s)); repeat constructor. by eexists _, _.
    + repeat constructor. by eexists _, _.
    + destruct options; [|constructor].
      destruct (String.eqb path explorerPath); repeat constructor.
      by eexists _, _.
  - subst explore. intros Hexplore Heq.
    apply String.eqb_eq in Heq. rewrite Heq in Hexplore.
    by destruct options.
Qed.

(** The stage list of the sample registration: no CORS or body-parser value
    given, uploads and explorer configured, explorer on its own path. *)
Example sample_registration_stages :
  length (middleware
            (app (applyMiddleware (collaborators := Sample.collaborators)
                    Sample.registration Sample.setup))) = 7.
Proof. reflexivity. Qed.

(** C7. CORS and the body parser are registered by the same policy on their
    configuration value.  With everything else fixed, [false] registers
    nothing, [true] registers the middleware made with no options, and an
    options object registers the middleware made with that very object; the
    stages before and after are the same in the three cases. *)
Theorem cors_and_bodyParser_policy `{Collaborators}
    (path explorerPath : option string) (onHealthCheck : option Callback)
    (disableHealthCheck : option bool) (s : Setup) :
  let execution := pathOr path "/graphql" in
  let stages cors bodyParserConfig :=
    middleware
      (app (applyMiddleware
              (mkServerRegistration path explorerPath cors bodyParserConfig
                 onHealthCheck disableHealthCheck) s)) in
  (forall bodyParserConfig, exists before rest,
     stages (Flag false) bodyParserConfig = before ++ rest
     /\ stages (Flag true) bodyParserConfig
        = before ++ [middlewareFromPath execution (corsMiddleware None)] ++ rest
     /\ forall o,
          stages (Options o) bodyParserConfig
          = before ++ [middlewareFromPath execution (corsMiddleware (Some o))]
            ++ rest)
  /\ (forall cors, exists before rest,
        stages cors (Flag false) = before ++ rest
        /\ stages cors (Flag true)
           = before ++ [middlewareFromPath execution (bodyParser None)] ++ rest
        /\ forall o,
             stages cors (Options o)
             = before ++ [middlewareFromPath execution (bodyParser (Some o))]
               ++ rest).
Proof.
  intros execution stages. subst stages. cbv beta.
  split; [intros bodyParserConfig|intros cors];
    rewrite !applyMiddleware_stages;
    cbn [reg_path reg_playgroundPath reg_cors reg_bodyParserConfig
         reg_onHealthCheck reg_disableHealthCheck];
    fold execution;
    set (earlier := middleware (app s));
    set (gate := [middlewareFromPath execution (startGate _)]);
    set (health := if default false disableHealthCheck then _ else _);
    set (upload := match uploadsConfig (this s) with Some _ => _ | None => _ end);
    set (dispatch := [middlewareFromPath execution (dispatcher _ _ _)]);
    set (explore := match renderPageOptions _ _ with Some _ => _ | None => _ end).
  - set (parser := policyStage execution bodyParser bodyParserConfig).
    exists (earlier ++ gate ++ health), (parser ++ upload ++ dispatch ++ explore).
    cbn [policyStage]. rewrite <- !app_assoc.
    split; [reflexivity|]. split; [reflexivity|]. intros o.
    rewrite applyMiddleware_stages, <- !app_assoc. reflexivity.
  - set (crossOrigin := policyStage execution corsMiddleware cors).
    exists (earlier ++ gate ++ health ++ crossOrigin),
           (upload ++ dispatch ++ explore).
    cbn [policyStage]. rewrite <- !app_assoc.
    split; [reflexivity|]. split; [reflexivity|]. intros o.
    rewrite applyMiddleware_stages, <- !app_assoc. reflexivity.
Qed.

Lemma policyStage_length (path : string) (make : option Obj -> Middleware)
    (policy : Policy) :
  length (policyStage path make policy) = if isFalse policy then 0 else 1.
Proof. by destruct policy as [|[]|o]. Qed.

(** C10. A [cors] or [bodyParserConfig] value that is left out still
    registers the middleware, made with the undefined value as its options,
    which is what [true] registers.  Of all the values only the boolean
    [false] registers nothing. *)
Theorem omitted_policy_registers `{Collaborators}
    (path explorerPath : option string) (onHealthCheck : option Callback)
    (disableHealthCheck : option bool) (s : Setup) :
  let execution := pathOr path "/graphql" in
  let stages cors bodyParserConfig :=
    middleware
      (app (applyMiddleware
              (mkServerRegistration path explorerPath cors bodyParserConfig
                 onHealthCheck disableHealthCheck) s)) in
  (forall bodyParserConfig, exists before rest,
     stages (Flag false) bodyParserConfig = before ++ rest
     /\ stages Unset bodyParserConfig
        = before ++ [middlewareFromPath execution (corsMiddleware None)] ++ rest
     /\ stages Unset bodyParserConfig = stages (Flag true) bodyParserConfig)
  /\ (forall cors, exists before rest,
        stages cors (Flag false) = before ++ rest
        /\ stages cors Unset
           = before ++ [middlewareFromPath execution (bodyParser None)] ++ rest
        /\ stages cors Unset = stages cors (Flag true))
  /\ (forall cors bodyParserConfig,
        length (stages cors bodyParserConfig)
        = length (stages (Flag false) bodyParserConfig)
        <-> cors = Flag false)
  /\ (forall cors bodyParserConfig,
        length (stages cors bodyParserConfig)
        = length (stages cors (Flag false))
        <-> bodyParserConfig = Flag false).
Proof.
  intros execution stages. subst stages. cbv beta.
  split; [|split; [|split]];
    [intros bodyParserConfig|intros cors
    |intros cors bodyParserConfig|intros cors bodyParserConfig];
    rewrite !applyMiddleware_stages;
    cbn [reg_path reg_playgroundPath reg_cors reg_bodyParserConfig
         reg_onHealthCheck reg_disableHealthCheck];
    fold execution;
    set (earlier := middleware (app s));
    set (gate := [middlewareFromPath execution (startGate _)]);
    set (health := if default false disableHealthCheck then _ else _);
    set (upload := match uploadsConfig (this s) with Some _ => _ | None => _ end);
    set (dispatch := [middlewareFromPath execution (dispatcher _ _ _)]);
    set (explore := match renderPageOptions _ _ with Some _ => _ | None => _ end).
  - set (parser := policyStage execution bodyParser bodyParserConfig).
    exists (earlier ++ gate ++ health), (parser ++ upload ++ dispatch ++ explore).
    cbn [policyStage]. rewrite <- !app_assoc. by repeat split.
  - set (crossOrigin := policyStage execution corsMiddleware cors).
    exists (earlier ++ gate ++ health ++ crossOrigin),
           (upload ++ dispatch ++ explore).
    cbn [policyStage]. rewrite <- !app_assoc. by repeat split.
  - rewrite !length_app, !policyStage_length.
    destruct cors as [|[]|o]; simpl; split; first [done|lia].
  - rewrite !length_app, !policyStage_length.
    destruct bodyParserConfig as [|[]|o]; simpl; split; first [done|lia].
Qed.

(** ** The initialization barrier *)

Lemma startGate_await (promiseWillStart : Promise) (next : M unit) (w : World) :
  startGate promiseWillStart next w
  = match promises (server w) !! promiseWillStart with
    | Some PFulfilled => after [CallAwait promiseWillStart] (next w)
    | Some (PRejected reason) =>
        mkResult (Rejected reason) w [CallAwait promiseWillStart]
    | Some PPending | None => mkResult Pending w [CallAwait promiseWillStart]
    end.
Proof.
  unfold startGate, bind, await; simpl.
  by destruct (promises (server w) !! promiseWillStart) as [[]|].
Qed.

(** C2. [applyMiddleware] runs the startup routine once, then and there: the
    server's count of runs goes up by one.  The promise of that run is what
    the first registered stage, the gate on the execution path, holds.  On
    every request to that path the gate awaits this promise before anything
    else and runs the continuation only once the promise is fulfilled; it
    passes a rejection on, and it stays suspended while the promise is
    pending.  The gate itself never runs the startup routine. *)
Theorem willStart_once_and_shared `{Collaborators}
    (reg : ServerRegistration) (s : Setup) :
  let path := pathOr (reg_path reg) "/graphql" in
  let promiseWillStart := fst (willStart (this s)) in
  let gate := middlewareFromPath path (startGate promiseWillStart) in
  willStartCalls (this (applyMiddleware reg s)) = S (willStartCalls (this s))
  /\ middleware (app (applyMiddleware reg s)) !! length (middleware (app s))
     = Some gate
  /\ (forall next w,
        ctx_path (ctx w) = path ->
        gate next w
        = match promises (server w) !! promiseWillStart with
          | Some PFulfilled => after [CallAwait promiseWillStart] (next w)
          | Some (PRejected reason) =>
              mkResult (Rejected reason) w [CallAwait promiseWillStart]
          | Some PPending | None =>
              mkResult Pending w [CallAwait promiseWillStart]
          end)
  /\ (forall next w,
        (forall w', willStartCalls (server (world (next w')))
                    = willStartCalls (server w')) ->
        willStartCalls (server (world (gate next w)))
        = willStartCalls (server w)).
Proof.
  intros path promiseWillStart gate. split; [reflexivity|]. split; [|split].
  - rewrite applyMiddleware_stages. by apply list_lookup_middle.
  - intros next w Hpath. subst gate.
    rewrite middlewareFromPath_match by done. apply startGate_await.
  - intros next w Hnext. subst gate. unfold middlewareFromPath.
    destruct (String.eqb _ _); [|apply Hnext].
    rewrite startGate_await.
    destruct (promises (server w) !! promiseWillStart) as [[]|];
      try reflexivity.
    apply Hnext.
Qed.

(** The startup promise of the sample server is still pending: the request
    is held at the gate. *)
Example sample_gate_holds :
  middlewareFromPath "/graphql" (startGate 0) Sample.next Sample.htmlGet
  = mkResult Pending Sample.htmlGet [CallAwait 0].
Proof. reflexivity. Qed.

(** ** The explorer on a path of its own *)

(** C8. With the explorer configured and its path different from the
    execution path, [applyMiddleware] registers one more handler, last and at
    the explorer path.  On every request that reaches it the handler answers
    with the explorer page under content type [text/html]: it reads neither
    the method nor the accept header, and it never runs the continuation. *)
Theorem explorer_handler `{Collaborators}
    (reg : ServerRegistration) (s : Setup) (configured : Obj) :
  let path := pathOr (reg_path reg) "/graphql" in
  let explorerPath := pathOr (reg_playgroundPath reg) path in
  playgroundOptions (this s) = Some configured ->
  path <> explorerPath ->
  exists options,
    renderPageOptions (this s) path = Some options
    /\ last (middleware (app (applyMiddleware reg s)))
       = Some (middlewareFromPath explorerPath (explorer options))
    /\ (forall next w,
          ctx_path (ctx w) = explorerPath ->
          middlewareFromPath explorerPath (explorer options) next w
          = explorerPage options w)
    /\ (forall next w,
          ctx_path (ctx w) <> explorerPath ->
          middlewareFromPath explorerPath (explorer options) next w = next w).
Proof.
  intros path explorerPath Hconfigured Hdiffer.
  destruct (renderPageOptions (this s) path) as [options|] eqn:Hoptions.
  2: { unfold renderPageOptions in Hoptions.
       by rewrite Hconfigured in Hoptions. }
  exists options. split; [done|]. split; [|split].
  - rewrite applyMiddleware_stages. fold path. fold explorerPath.
    rewrite Hoptions. apply String.eqb_neq in Hdiffer. rewrite Hdiffer.
    rewrite !app_assoc. apply last_snoc.
  - intros next w Hpath. by rewrite middlewareFromPath_match.
  - intros next w Hpath. by apply middlewareFromPath_mismatch.
Qed.

Lemma explorer_handler_witness :
  exists options,
    renderPageOptions Sample.apollo "/graphql" = Some options
    /\ last (middleware
               (app (applyMiddleware (collaborators := Sample.collaborators)
                       Sample.registration Sample.setup)))
       = Some (middlewareFromPath "/playground"
                 (explorer (collaborators := Sample.collaborators) options)).
Proof.
  destruct (explorer_handler (H := Sample.collaborators)
              Sample.registration Sample.setup ∅ eq_refl)
    as (options & Hoptions & Hlast & _).
  - discriminate.
  - by exists options.
Defined.

(** ** The health check *)

Lemma healthCheck_plain (next : M unit) (w : World) :
  healthCheck None next w
  = mkResult (Fulfilled tt)
      (mkWorld (with_body passBody (ctx (announced w))) (server w)) [].
Proof. reflexivity. Qed.

Lemma healthCheck_callback (check : Callback) (next : M unit) (w : World) :
  healthCheck (Some check) next w
  = let c := check (announced w) in
    let called := CallOnHealthCheck :: invoked_trace c in
    match invocation c with
    | Throws reason => mkResult (Rejected reason) (invoked_world c) called
    | Returns (Fulfilled _) =>
        mkResult (Fulfilled tt)
          (mkWorld (with_body passBody (ctx (invoked_world c)))
                   (server (invoked_world c)))
          called
    | Returns (Rejected _) =>
        mkResult (Fulfilled tt)
          (mkWorld
             (with_body failBody
                (with_status (JsNumber 503) (ctx (invoked_world c))))
             (server (invoked_world c)))
          called
    | Returns Pending => mkResult Pending (invoked_world c) called
    end.
Proof.
  unfold healthCheck, ctx_set. rewrite bind_modify_ctx. fold (announced w).
  rewrite bind_call. unfold bind at 1, invoke, try_catch, after. cbv zeta.
  cbn [outcome world trace].
  destruct (invocation (check (announced w))) as [reason|[[]|reason|]];
    cbn; by rewrite ?app_nil_r.
Qed.

(** C3. The health check does not absorb every failure of its callback.  The
    handler calls the callback and chains [.then] and [.catch] on the promise
    that the call returns: when the callback throws before it returns one,
    the throw leaves the handler with the callback's reason, and the handler
    has written neither status 503 nor the fail body; it stops with the
    context as the callback left it. *)
Theorem healthCheck_throw_escapes
    (check : Callback) (next : M unit) (w : World) (reason : Thrown) :
  ctx_path (ctx w) = "/.well-known/apollo/server-health" ->
  invocation (check (announced w)) = Throws reason ->
  let c := check (announced w) in
  let r :=
    middlewareFromPath "/.well-known/apollo/server-health"
      (healthCheck (Some check)) next w in
  outcome r = Rejected reason
  /\ world r = invoked_world c
  /\ trace r = CallOnHealthCheck :: invoked_trace c.
Proof.
  intros Hpath Hthrows c r. subst r c.
  rewrite middlewareFromPath_match by done.
  rewrite healthCheck_callback. cbv zeta. by rewrite Hthrows.
Qed.

Lemma healthCheck_throw_escapes_witness :
  let w :=
    Sample.world
      (Sample.request "/.well-known/apollo/server-health" "GET" ∅) in
  let r :=
    middlewareFromPath "/.well-known/apollo/server-health"
      (healthCheck (Some Sample.throwing)) Sample.next w in
  outcome r = Rejected Sample.down
  /\ ctx_status (ctx (world r)) = JsNumber 404
  /\ ctx_body (ctx (world r)) = None.
Proof.
  pose proof (healthCheck_throw_escapes Sample.throwing Sample.next
                (Sample.world
                   (Sample.request "/.well-known/apollo/server-health"
                      "GET" ∅))
                Sample.down eq_refl eq_refl) as (Houtcome & Hworld & _).
  cbv zeta. split; [exact Houtcome|]. by rewrite Hworld.
Defined.

(** No callback: the pass body at once, with status 200, under the health
    media type. *)
Example sample_health_pass :
  middlewareFromPath healthPath (healthCheck None) Sample.next
    (Sample.world (Sample.request healthPath "GET" ∅))
  = mkResult (Fulfilled tt)
      (mkWorld
         (mkContext healthPath "GET" (mkIncomingMessage ∅ "") None
            (JsNumber 200) true
            {[ "Content-Type" := "application/health+json" ]}
            (Some (BodyObject {[ "status" := JsString "pass" ]})))
         Sample.apollo)
      [].
Proof. reflexivity. Qed.

(** ** The upload interceptor *)

Section Uploads.

Context `{collaborators : Collaborators}.

Lemma fileUploadMiddleware_passes (uploadsConfig : Obj) (next : M unit)
    (w : World) :
  truthy (typeis (ctx_req (ctx w)) ["multipart/form-data"]) = false ->
  fileUploadMiddleware uploadsConfig next w = after [CallTypeis] (next w).
Proof.
  intros Hplain. unfold fileUploadMiddleware.
  by rewrite bind_gets, bind_call, Hplain.
Qed.

Lemma fileUploadMiddleware_processed (uploadsConfig : Obj) (next : M unit)
    (w : World) (body : Obj) :
  truthy (typeis (ctx_req (ctx w)) ["multipart/form-data"]) = true ->
  processFileUploads (ctx_req (ctx w)) uploadsConfig = Fulfilled body ->
  fileUploadMiddleware uploadsConfig next w
  = after [CallTypeis; CallProcessFileUploads uploadsConfig]
      (next (mkWorld (with_request_body body (ctx w)) (server w))).
Proof.
  intros Hmultipart Hprocessed. unfold fileUploadMiddleware.
  rewrite bind_gets, bind_call, Hmultipart.
  unfold try_await_return. rewrite bind_call.
  unfold settle; simpl. rewrite Hprocessed; simpl.
  unfold assign_request_body. rewrite bind_modify_ctx.
  by rewrite !after_after.
Qed.

Lemma fileUploadMiddleware_rejected (uploadsConfig : Obj) (next : M unit)
    (w : World) (error : Thrown) :
  truthy (typeis (ctx_req (ctx w)) ["multipart/form-data"]) = true ->
  processFileUploads (ctx_req (ctx w)) uploadsConfig = Rejected error ->
  fileUploadMiddleware uploadsConfig next w
  = mkResult
      (Rejected
         (ThrownErrors
            (formatApolloErrors [error]
               (mkFormatOptions (formatError (requestOptions (server w)))
                                (debug (requestOptions (server w)))))))
      (if truthy (error_prop error "status")
          && truthy (error_prop error "expose")
       then mkWorld (with_status (error_prop error "status") (ctx w))
                    (server w)
       else w)
      [CallTypeis; CallProcessFileUploads uploadsConfig;
       CallFormatApolloErrors].
Proof.
  intros Hmultipart Hrejected. unfold fileUploadMiddleware.
  rewrite bind_gets, bind_call, Hmultipart.
  unfold try_await_return. rewrite bind_call.
  unfold settle; simpl. rewrite Hrejected; simpl.
  destruct (truthy (error_prop error "status")
            && truthy (error_prop error "expose")).
  - unfold assign_status. rewrite bind_modify_ctx, bind_gets. reflexivity.
  - unfold bind at 1. simpl. rewrite after_nil, bind_gets. reflexivity.
Qed.

End Uploads.

(** C4. A multipart request whose upload processing rejects.  The interceptor
    rejects with what the error formatter returns for that one error under the
    server's formatter and debug flag.  Before that, a status that the error
    carries for exposure has been copied onto the response.  The request body
    is what it was; the continuation has not run. *)
Theorem upload_failure `{Collaborators}
    (uploadsConfig : Obj) (next : M unit) (w : World) (error : Thrown) :
  truthy (typeis (ctx_req (ctx w)) ["multipart/form-data"]) = true ->
  processFileUploads (ctx_req (ctx w)) uploadsConfig = Rejected error ->
  let r := fileUploadMiddleware uploadsConfig next w in
  outcome r
  = Rejected
      (ThrownErrors
         (formatApolloErrors [error]
            (mkFormatOptions (formatError (requestOptions (server w)))
                             (debug (requestOptions (server w))))))
  /\ (forall e status,
        error = ThrownError e ->
        e !! "status" = Some (JsNumber status) ->
        status <> 0%Z ->
        e !! "expose" = Some (JsBool true) ->
        ctx_status (ctx (world r)) = JsNumber status)
  /\ ctx_status (ctx (world r))
     = (if truthy (error_prop error "status")
           && truthy (error_prop error "expose")
        then error_prop error "status"
        else ctx_status (ctx w))
  /\ ctx_request_body (ctx (world r)) = ctx_request_body (ctx w)
  /\ trace r
     = [CallTypeis; CallProcessFileUploads uploadsConfig;
        CallFormatApolloErrors].
Proof.
  intros Hmultipart Hrejected r. subst r.
  rewrite (fileUploadMiddleware_rejected _ _ _ _ Hmultipart Hrejected).
  cbn [outcome world trace].
  split; [done|]. split; [|split; [|split]].
  - intros e status -> Hstatus Hnonzero Hexpose.
    unfold error_prop, prop. rewrite Hstatus, Hexpose. simpl.
    apply Z.eqb_neq in Hnonzero. by rewrite Hnonzero.
  - by destruct (truthy _ && truthy _).
  - by destruct (truthy _ && truthy _).
  - done.
Qed.

Lemma upload_failure_witness :
  let w :=
    Sample.world
      (Sample.request "/graphql" "POST"
         {[ "content-type" := Sample.multipart ]}) in
  let r :=
    fileUploadMiddleware (collaborators := Sample.collaborators)
      ∅ Sample.next w in
  outcome r = Rejected (ThrownErrors [Sample.unprocessable])
  /\ ctx_status (ctx (world r)) = JsNumber 422
  /\ ctx_request_body (ctx (world r)) = None.
Proof.
  pose proof (upload_failure (H := Sample.collaborators) ∅ Sample.next
                (Sample.world
                   (Sample.request "/graphql" "POST"
                      {[ "content-type" := Sample.multipart ]}))
                (ThrownError Sample.unprocessable) eq_refl eq_refl)
    as (Hrejected & Hstatus & _ & Hbody & _).
  split; [exact Hrejected|]. split; [|exact Hbody].
  by apply (Hstatus Sample.unprocessable 422%Z).
Defined.

(** * Further properties of the adapter *)

(** ** The upload interceptor, beyond the failing upload *)

(** X1. A request that is not multipart passes the interceptor untouched: the
    interceptor is the continuation on the same context, and the upload
    processor is not called. *)
Theorem upload_not_multipart `{Collaborators}
    (uploadsConfig : Obj) (next : M unit) (w : World) :
  truthy (typeis (ctx_req (ctx w)) ["multipart/form-data"]) = false ->
  fileUploadMiddleware uploadsConfig next w = after [CallTypeis] (next w).
Proof.
  intros Hplain. unfold fileUploadMiddleware.
  rewrite bind_gets, bind_call. by rewrite Hplain.
Qed.

Lemma upload_not_multipart_witness :
  fileUploadMiddleware (collaborators := Cases.collaborators)
    ∅ Sample.next Cases.jsonPost
  = after [CallTypeis] (Sample.next Cases.jsonPost).
Proof.
  apply (upload_not_multipart (H := Cases.collaborators)
           ∅ Sample.next Cases.jsonPost).
  reflexivity.
Defined.

(** X2. When the upload processing succeeds, the request body is replaced by
    its result and the continuation runs on that context.  What the
    continuation does is the interceptor's outcome as it stands: a rejection
    further down the chain goes through with its own reason, it is not passed
    to the error formatter, and the interceptor assigns no status for it. *)
Theorem upload_success `{Collaborators}
    (uploadsConfig : Obj) (next : M unit) (w : World) (body : Obj) :
  truthy (typeis (ctx_req (ctx w)) ["multipart/form-data"]) = true ->
  processFileUploads (ctx_req (ctx w)) uploadsConfig = Fulfilled body ->
  let parsed := mkWorld (with_request_body body (ctx w)) (server w) in
  let r := fileUploadMiddleware uploadsConfig next w in
  ctx_request_body (ctx parsed) = Some body
  /\ r = after [CallTypeis; CallProcessFileUploads uploadsConfig] (next parsed)
  /\ outcome r = outcome (next parsed)
  /\ world r = world (next parsed)
  /\ (forall reason,
        outcome (next parsed) = Rejected reason ->
        outcome r = Rejected reason
        /\ trace r
           = [CallTypeis; CallProcessFileUploads uploadsConfig]
             ++ trace (next parsed)).
Proof.
  intros Hmultipart Hprocessed parsed r. subst r.
  rewrite (fileUploadMiddleware_processed _ _ _ _ Hmultipart Hprocessed).
  fold parsed. split; [done|]. split; [done|]. split; [done|].
  split; [done|]. intros reason Hnext. by split.
Qed.

Lemma upload_success_witness :
  fileUploadMiddleware (collaborators := Cases.collaborators)
    ∅ Cases.failingNext (Cases.upload "{}")
  = mkResult
      (Rejected (ThrownError {[ "message" := JsString "resolver failed" ]}))
      (mkWorld
         (with_request_body {[ "operations" := JsString "{}" ]}
            (ctx (Cases.upload "{}")))
         Sample.apollo)
      [CallTypeis; CallProcessFileUploads ∅].
Proof.
  pose proof (upload_success (H := Cases.collaborators) ∅ Cases.failingNext
                (Cases.upload "{}") {[ "operations" := JsString "{}" ]}
                eq_refl eq_refl) as (_ & Hrun & _).
  exact Hrun.
Defined.

(** X3. While the upload processing is pending the interceptor is suspended:
    the continuation has not run, the request body and the rest of the
    context are as they were, and the error formatter has not been called. *)
Theorem upload_pending `{Collaborators}
    (uploadsConfig : Obj) (next : M unit) (w : World) :
  truthy (typeis (ctx_req (ctx w)) ["multipart/form-data"]) = true ->
  processFileUploads (ctx_req (ctx w)) uploadsConfig = Pending ->
  fileUploadMiddleware uploadsConfig next w
  = mkResult Pending w [CallTypeis; CallProcessFileUploads uploadsConfig].
Proof.
  intros Hmultipart Hpending. unfold fileUploadMiddleware.
  rewrite bind_gets, bind_call, Hmultipart.
  unfold try_await_return. rewrite bind_call.
  unfold settle; simpl. by rewrite Hpending.
Qed.

Lemma upload_pending_witness :
  fileUploadMiddleware (collaborators := Cases.collaborators)
    ∅ Sample.next (Cases.upload "pending")
  = mkResult Pending (Cases.upload "pending")
      [CallTypeis; CallProcessFileUploads ∅].
Proof.
  apply (upload_pending (H := Cases.collaborators)
           ∅ Sample.next (Cases.upload "pending")); reflexivity.
Defined.

(** X4. A failed upload whose error does not carry both a truthy [status] and
    a truthy [expose] leaves the whole context as it was: the response status
    is not touched.  The formatted errors are thrown all the same.  This is
    the case of an error with [expose: false], of one without status or with
    status 0, and of a rejection with an array. *)
Theorem upload_failure_unexposed `{Collaborators}
    (uploadsConfig : Obj) (next : M unit) (w : World) (error : Thrown) :
  truthy (typeis (ctx_req (ctx w)) ["multipart/form-data"]) = true ->
  processFileUploads (ctx_req (ctx w)) uploadsConfig = Rejected error ->
  truthy (error_prop error "status") && truthy (error_prop error "expose")
  = false ->
  let r := fileUploadMiddleware uploadsConfig next w in
  world r = w
  /\ outcome r
     = Rejected
         (ThrownErrors
            (formatApolloErrors [error]
               (mkFormatOptions (formatError (requestOptions (server w)))
                                (debug (requestOptions (server w)))))).
Proof.
  intros Hmultipart Hrejected Hunexposed r. subst r.
  rewrite (fileUploadMiddleware_rejected _ _ _ _ Hmultipart Hrejected).
  by rewrite Hunexposed.
Qed.

Lemma upload_failure_unexposed_witness :
  let r :=
    fileUploadMiddleware (collaborators := Cases.collaborators)
      ∅ Sample.next (Cases.upload "internal") in
  world r = Cases.upload "internal"
  /\ outcome r = Rejected (ThrownErrors [Cases.internal]).
Proof.
  apply (upload_failure_unexposed (H := Cases.collaborators) ∅ Sample.next
           (Cases.upload "internal") (ThrownError Cases.internal));
    reflexivity.
Defined.

(** The three shapes of an unexposed error. *)
Lemma unexposed_shapes (e : Obj) (es : list Obj) :
  (prop e "expose" = JsBool false \/ e !! "expose" = None \/
   e !! "status" = None \/ e !! "status" = Some (JsNumber 0) ->
   truthy (error_prop (ThrownError e) "status")
   && truthy (error_prop (ThrownError e) "expose") = false)
  /\ truthy (error_prop (ThrownErrors es) "status")
     && truthy (error_prop (ThrownErrors es) "expose") = false.
Proof.
  split; [|done]. unfold error_prop, prop.
  intros [He|[He|[He|He]]]; rewrite ?He; simpl;
    by rewrite ?andb_false_r.
Qed.

(** ** Registration, beyond the order of the stages *)

Lemma pathOr_nonempty (path : option string) (fallback : string) :
  fallback <> "" -> pathOr path fallback <> "".
Proof.
  intros Hfallback. unfold pathOr. destruct path as [p|]; [|done].
  destruct (String.eqb p "") eqn:Hp; [done|]. by apply String.eqb_neq.
Qed.

(** X5. [applyMiddleware] settles the two paths and records them on the
    server.  A path that is left out or empty becomes [/graphql]; an explorer
    path that is left out or empty becomes the execution path; any other
    value is taken as given.  Neither recorded path is ever empty, and the
    configuration fields of the server are what they were. *)
Theorem applyMiddleware_records_paths `{Collaborators}
    (reg : ServerRegistration) (s : Setup) :
  let path := pathOr (reg_path reg) "/graphql" in
  let explorerPath := pathOr (reg_playgroundPath reg) path in
  let server' := this (applyMiddleware reg s) in
  graphqlPath server' = path
  /\ playgroundPath server' = Some explorerPath
  /\ path <> ""
  /\ explorerPath <> ""
  /\ (reg_path reg = None \/ reg_path reg = Some "" -> path = "/graphql")
  /\ (forall p, reg_path reg = Some p -> p <> "" -> path = p)
  /\ (reg_playgroundPath reg = None \/ reg_playgroundPath reg = Some "" ->
      explorerPath = path)
  /\ (forall p, reg_playgroundPath reg = Some p -> p <> "" -> explorerPath = p)
  /\ uploadsConfig server' = uploadsConfig (this s)
  /\ playgroundOptions server' = playgroundOptions (this s)
  /\ subscriptionsPath server' = subscriptionsPath (this s)
  /\ requestOptions server' = requestOptions (this s)
  /\ promises server' = promises (this s).
Proof.
  intros path explorerPath server'.
  assert (Hpath : path <> "") by by apply pathOr_nonempty.
  split; [reflexivity|]. split; [reflexivity|]. split; [done|].
  split; [by apply pathOr_nonempty|].
  split; [by intros [Heq|Heq]; subst path; rewrite Heq|].
  split.
  { intros p Heq Hp. subst path. rewrite Heq. simpl.
    apply String.eqb_neq in Hp. by rewrite Hp. }
  split; [by intros [Heq|Heq]; subst explorerPath; rewrite Heq|].
  split.
  { intros p Heq Hp. subst explorerPath. rewrite Heq. simpl.
    apply String.eqb_neq in Hp. by rewrite Hp. }
  by repeat split.
Qed.

(** X6. When the explorer path is left out, empty, or the execution path
    itself, no handler of its own is registered for the explorer: the stage
    registered last is the dispatcher, and it is the dispatcher for equal
    paths, which serves the explorer by content negotiation. *)
Theorem explorer_on_execution_path `{Collaborators}
    (reg : ServerRegistration) (s : Setup) :
  let path := pathOr (reg_path reg) "/graphql" in
  reg_playgroundPath reg = None
  \/ reg_playgroundPath reg = Some ""
  \/ reg_playgroundPath reg = Some path ->
  last (middleware (app (applyMiddleware reg s)))
  = Some (middlewareFromPath path
            (dispatcher (renderPageOptions (this s) path) path path)).
Proof.
  intros path Hexplorer.
  assert (Hsame : pathOr (reg_playgroundPath reg) path = path).
  { destruct Hexplorer as [Heq|[Heq|Heq]]; rewrite Heq; simpl; try done.
    by destruct (String.eqb path ""). }
  rewrite applyMiddleware_stages. fold path. rewrite Hsame.
  rewrite String.eqb_refl.
  replace (match renderPageOptions (this s) path with
           | Some _ => [] | None => []
           end) with (@nil Middleware) by by destruct (renderPageOptions _ _).
  rewrite app_nil_r, !app_assoc. apply last_snoc.
Qed.

Lemma explorer_on_execution_path_witness :
  last (middleware
          (app (applyMiddleware (collaborators := Sample.collaborators)
                  (mkServerRegistration (Some "/api") None Unset Unset
                     None None)
                  Sample.setup)))
  = Some (middlewareFromPath "/api"
            (dispatcher (collaborators := Sample.collaborators)
               (renderPageOptions Sample.apollo "/api") "/api" "/api")).
Proof.
  apply (explorer_on_execution_path (H := Sample.collaborators)
           (mkServerRegistration (Some "/api") None Unset Unset None None)
           Sample.setup).
  by left.
Defined.

(** X7. On a server without explorer options the dispatcher is registered
    last, whatever the explorer path, and it hands every request to the
    execution path to the engine: GET or not, whatever is accepted, without
    parsing the accept header. *)
Theorem playground_disabled `{Collaborators}
    (reg : ServerRegistration) (s : Setup) :
  let path := pathOr (reg_path reg) "/graphql" in
  let explorerPath := pathOr (reg_playgroundPath reg) path in
  playgroundOptions (this s) = None ->
  last (middleware (app (applyMiddleware reg s)))
  = Some (middlewareFromPath path (dispatcher None path explorerPath))
  /\ forall next w,
       ctx_path (ctx w) = path ->
       middlewareFromPath path (dispatcher None path explorerPath) next w
       = after [CallGraphqlKoa] (graphqlKoa createGraphQLServerOptions next w).
Proof.
  intros path explorerPath Hdisabled.
  assert (Hoptions : renderPageOptions (this s) path = None).
  { unfold renderPageOptions. by rewrite Hdisabled. }
  split.
  - rewrite applyMiddleware_stages. fold path. fold explorerPath.
    rewrite Hoptions, app_nil_r, !app_assoc. apply last_snoc.
  - intros next w Hpath. rewrite middlewareFromPath_match by done.
    by rewrite dispatcher_unconfigured.
Qed.

Lemma playground_disabled_witness :
  last (middleware
          (app (applyMiddleware (collaborators := Sample.collaborators)
                  Sample.registration
                  (mkSetup (mkKoa []) Cases.headless))))
  = Some (middlewareFromPath "/graphql"
            (dispatcher (collaborators := Sample.collaborators)
               None "/graphql" "/playground")).
Proof.
  apply (playground_disabled (H := Sample.collaborators)
           Sample.registration (mkSetup (mkKoa []) Cases.headless) eq_refl).
Defined.

(** X8. The options handed to the explorer's renderer are the configured
    explorer options, completed by two defaults: [endpoint], the execution
    path, and [subscriptionEndpoint], the server's subscriptions path.  A
    configured property always wins over a default, and nothing else is
    added.  Without configured options there are none to render with. *)
Theorem renderPageOptions_defaults (server0 : ApolloServer) (path : string) :
  (forall configured,
     playgroundOptions server0 = Some configured ->
     exists options,
       renderPageOptions server0 path = Some options
       /\ forall k,
            options !! k
            = match configured !! k with
              | Some v => Some v
              | None =>
                  if decide (k = "endpoint") then Some (JsString path)
                  else if decide (k = "subscriptionEndpoint")
                       then Some (subscriptionsPath server0)
                       else None
              end)
  /\ (playgroundOptions server0 = None ->
      renderPageOptions server0 path = None).
Proof.
  unfold renderPageOptions. split.
  - intros configured ->. eexists. split; [reflexivity|]. intros k.
    destruct (configured !! k) as [v|] eqn:Hk.
    + by apply lookup_union_Some_l.
    + rewrite lookup_union_r by done.
      destruct (decide (k = "endpoint")) as [->|Hendpoint].
      { by rewrite lookup_insert_eq. }
      rewrite lookup_insert_ne by done.
      destruct (decide (k = "subscriptionEndpoint")) as [->|Hsubscription].
      { by rewrite lookup_insert_eq. }
      by rewrite lookup_insert_ne.
  - by intros ->.
Qed.

(** X9. The adapter leaves other routes alone.  For a request whose path is
    not the execution path, not the explorer path unless the server has no
    explorer options, and not the health-check path unless the health check
    is disabled, every stage that [applyMiddleware] adds is the continuation
    and nothing else: no collaborator is called and the context is not
    written. *)
Theorem other_paths_untouched `{Collaborators}
    (reg : ServerRegistration) (s : Setup) (next : M unit) (w : World) :
  let path := pathOr (reg_path reg) "/graphql" in
  let explorerPath := pathOr (reg_playgroundPath reg) path in
  ctx_path (ctx w) <> path ->
  ctx_path (ctx w) <> explorerPath \/ playgroundOptions (this s) = None ->
  ctx_path (ctx w) <> healthPath \/ reg_disableHealthCheck reg = Some true ->
  forall stage,
    stage ∈ drop (length (middleware (app s)))
              (middleware (app (applyMiddleware reg s))) ->
    stage next w = next w.
Proof.
  intros path explorerPath Hpath Hexplorer Hhealth stage.
  rewrite applyMiddleware_stages, drop_app_length.
  fold path. fold explorerPath.
  rewrite !elem_of_app.
  assert (Hpolicy : forall make policy,
            stage ∈ policyStage path make policy -> stage next w = next w).
  { intros make policy Hin.
    destruct policy as [|[]|o]; simpl in Hin;
      try apply list_elem_of_singleton in Hin; subst;
      try by apply middlewareFromPath_mismatch.
    by apply elem_of_nil in Hin. }
  intros [Hin|[Hin|[Hin|[Hin|[Hin|[Hin|Hin]]]]]].
  - apply list_elem_of_singleton in Hin as ->.
    by apply middlewareFromPath_mismatch.
  - destruct Hhealth as [Hhealth|Hhealth].
    + destruct (default false _); [by apply elem_of_nil in Hin|].
      apply list_elem_of_singleton in Hin as ->.
      by apply middlewareFromPath_mismatch.
    + rewrite Hhealth in Hin. by apply elem_of_nil in Hin.
  - by apply (Hpolicy corsMiddleware (reg_cors reg)).
  - by apply (Hpolicy bodyParser (reg_bodyParserConfig reg)).
  - destruct (uploadsConfig (this s)); [|by apply elem_of_nil in Hin].
    apply list_elem_of_singleton in Hin as ->.
    by apply middlewareFromPath_mismatch.
  - apply list_elem_of_singleton in Hin as ->.
    by apply middlewareFromPath_mismatch.
  - destruct Hexplorer as [Hexplorer|Hexplorer].
    + destruct (renderPageOptions _ _); [|by apply elem_of_nil in Hin].
      destruct (String.eqb _ _); [by apply elem_of_nil in Hin|].
      apply list_elem_of_singleton in Hin as ->.
      by apply middlewareFromPath_mismatch.
    + unfold renderPageOptions in Hin. rewrite Hexplorer in Hin.
      by apply elem_of_nil in Hin.
Qed.

Lemma other_paths_untouched_witness :
  Forall (fun stage : Middleware =>
            stage Sample.next Cases.elsewhere = Sample.next Cases.elsewhere)
    (middleware
       (app (applyMiddleware (collaborators := Sample.collaborators)
               Sample.registration Sample.setup))).
Proof.
  apply Forall_forall.
  apply (other_paths_untouched (H := Sample.collaborators)
           Sample.registration Sample.setup Sample.next Cases.elsewhere).
  - discriminate.
  - left. discriminate.
  - left. discriminate.
Defined.

(** ** The path gate, beyond match and mismatch *)

Lemma append_nonempty_neq (a b : string) : b <> "" -> a +:+ b <> a.
Proof.
  intros Hb. induction a as [|c a IH]; simpl; [done|].
  intros Heq. injection Heq as Heq. by apply IH.
Qed.

(** X10. The path gate matches whole paths only.  A request to a path that
    continues the target, by a trailing slash or by a sub-route, is not
    served: the wrapper is the continuation alone. *)
Theorem middlewareFromPath_no_prefix (path more : string)
    (inner : Middleware) (next : M unit) (w : World) :
  more <> "" ->
  ctx_path (ctx w) = path +:+ more ->
  middlewareFromPath path inner next w = next w.
Proof.
  intros Hmore Hpath. apply middlewareFromPath_mismatch.
  rewrite Hpath. by apply append_nonempty_neq.
Qed.

Lemma middlewareFromPath_no_prefix_witness :
  middlewareFromPath "/graphql" (explorer (collaborators := Sample.collaborators) ∅)
    Sample.next (Sample.world (Sample.request "/graphql/" "GET" ∅))
  = Sample.next (Sample.world (Sample.request "/graphql/" "GET" ∅)).
Proof.
  apply (middlewareFromPath_no_prefix "/graphql" "/").
  - discriminate.
  - reflexivity.
Defined.

(** X11. Gates nest as conjunctions of their tests.  A gate inside a gate for
    the same path adds nothing; a gate inside a gate for another path never
    opens, so that the wrapper is the continuation on every request. *)
Theorem middlewareFromPath_nested (outer inner : string) (fn : Middleware)
    (next : M unit) (w : World) :
  middlewareFromPath outer (middlewareFromPath outer fn) next w
  = middlewareFromPath outer fn next w
  /\ (outer <> inner ->
      middlewareFromPath outer (middlewareFromPath inner fn) next w = next w).
Proof.
  split.
  - unfold middlewareFromPath. by destruct (String.eqb _ _).
  - intros Hdiffer. unfold middlewareFromPath.
    destruct (String.eqb (ctx_path (ctx w)) outer) eqn:Houter; [|done].
    apply String.eqb_eq in Houter. rewrite Houter.
    apply String.eqb_neq in Hdiffer. by rewrite Hdiffer.
Qed.

(** ** Content negotiation, beyond the first match *)

Lemma prefersHTML_filter (types : list string) :
  prefersHTML types
  = match List.filter negotiable types with
    | x :: _ => String.eqb x "text/html"
    | [] => false
    end.
Proof.
  induction types as [|x types IH]; [done|].
  rewrite prefersHTML_cons. simpl. by destruct (negotiable x).
Qed.

(** X12. Only [text/html] and [application/json] count in the negotiation:
    the answer is that of the list with every other type struck out, and it
    is decided by the first type that is left.  Types such as [*/*] or
    [text/*] neither select the explorer nor the engine, wherever they rank;
    a list without [text/html] never selects the explorer. *)
Theorem prefersHTML_ignores_others (types : list string) :
  prefersHTML types = prefersHTML (List.filter negotiable types)
  /\ (forall before rest x,
        negotiable x = false ->
        prefersHTML (before ++ x :: rest) = prefersHTML (before ++ rest))
  /\ (forall rest, prefersHTML ("text/html" :: rest) = true)
  /\ (forall rest, prefersHTML ("application/json" :: rest) = false)
  /\ ("text/html" ∉ types -> prefersHTML types = false).
Proof.
  split; [|split; [|split; [|split]]].
  - rewrite (prefersHTML_filter (List.filter negotiable types)).
    rewrite prefersHTML_filter.
    replace (List.filter negotiable (List.filter negotiable types))
      with (List.filter negotiable types); [done|].
    induction types as [|x types IH]; [done|]. simpl.
    destruct (negotiable x) eqn:Hx; simpl; rewrite ?Hx; [by f_equal|done].
  - intros before rest x Hx. rewrite !prefersHTML_filter.
    rewrite !List.filter_app. simpl. by rewrite Hx.
  - done.
  - done.
  - intros Hnone. destruct (prefersHTML types) eqn:Hprefers; [|done].
    apply prefersHTML_spec in Hprefers as (before & rest & -> & _).
    exfalso. apply Hnone. apply elem_of_app. right. apply elem_of_cons.
    by left.
Qed.

(** X13. The dispatcher parses the accept header only when it must.  Without
    explorer options, with the explorer on another path, or for a method
    other than GET, the dispatcher is the engine call on the untouched
    context.  Only for a GET with the explorer on the execution path does it
    consult the accept header, and it does so first. *)
Theorem dispatcher_parses_when_needed `{Collaborators}
    (options : option Obj) (path explorerPath : string)
    (next : M unit) (w : World) :
  let r := dispatcher options path explorerPath next w in
  (options = None \/ path <> explorerPath \/ ctx_method (ctx w) <> "GET" ->
   r = after [CallGraphqlKoa] (graphqlKoa createGraphQLServerOptions next w))
  /\ (is_Some options /\ path = explorerPath /\ ctx_method (ctx w) = "GET" ->
      exists rest, trace r = CallAccepts :: rest).
Proof.
  intros r. subst r. split.
  - intros [->|[Hpath|Hmethod]].
    + apply dispatcher_unconfigured.
    + by apply dispatcher_elsewhere.
    + by apply dispatcher_not_get.
  - intros ([o ->] & <- & Hmethod). rewrite dispatcher_get by done.
    by eexists.
Qed.

(** ** Registering twice *)

(** X14. Nothing stops a second registration, and the two do not share their
    startup: each runs the startup routine once, and each gate awaits the
    promise of its own run.  The stages of the first registration stay in
    front, in place; the server records the paths of the second. *)
Theorem applyMiddleware_twice `{Collaborators}
    (first second : ServerRegistration) (s : Setup) :
  let s1 := applyMiddleware first s in
  let s2 := applyMiddleware second s1 in
  let p := willStartCalls (this s) in
  willStartCalls (this s2) = S (S p)
  /\ middleware (app s1) `prefix_of` middleware (app s2)
  /\ middleware (app s2) !! length (middleware (app s))
     = Some (middlewareFromPath (pathOr (reg_path first) "/graphql")
               (startGate p))
  /\ middleware (app s2) !! length (middleware (app s1))
     = Some (middlewareFromPath (pathOr (reg_path second) "/graphql")
               (startGate (S p)))
  /\ graphqlPath (this s2) = pathOr (reg_path second) "/graphql".
Proof.
  intros s1 s2 p.
  assert (Hsecond : exists added,
            middleware (app s2)
            = middleware (app s1)
              ++ middlewareFromPath (pathOr (reg_path second) "/graphql")
                   (startGate (S p)) :: added).
  { subst s2. rewrite applyMiddleware_stages. by eexists. }
  assert (Hfirst : exists added,
            middleware (app s1)
            = middleware (app s)
              ++ middlewareFromPath (pathOr (reg_path first) "/graphql")
                   (startGate p) :: added).
  { subst s1. rewrite applyMiddleware_stages. by eexists. }
  destruct Hsecond as (added2 & Hsecond), Hfirst as (added1 & Hfirst).
  split; [reflexivity|]. split; [|split; [|split]].
  - rewrite Hsecond. by apply prefix_app_r.
  - rewrite Hsecond, Hfirst, <- app_assoc. by apply list_lookup_middle.
  - rewrite Hsecond. by apply list_lookup_middle.
  - reflexivity.
Qed.

(** ** What the explorer page and the health check write *)

(** X15. What the explorer's own handler writes, on Koa's accessors: the
    content type [text/html], the rendered page as body, [Content-Length] as
    the byte length of the page, and status 200 unless a status had been
    assigned before, which is then kept.  Every other response header, the
    request and the server are as they were, and the handler completes
    normally. *)
Theorem explorer_frame `{Collaborators}
    (options : Obj) (next : M unit) (w : World) :
  let r := explorer options next w in
  let c := ctx (world r) in
  let page := renderPlaygroundPage options in
  outcome r = Fulfilled tt
  /\ ctx_body c = Some (BodyString page)
  /\ ctx_headers c !! "Content-Type" = Some "text/html"
  /\ ctx_headers c !! "Content-Length" = Some (pretty (String.length page))
  /\ ctx_status c
     = (if ctx_explicitStatus (ctx w) then ctx_status (ctx w)
        else JsNumber 200)
  /\ (forall k, k <> "Content-Type" -> k <> "Content-Length" ->
                ctx_headers c !! k = ctx_headers (ctx w) !! k)
  /\ ctx_request_body c = ctx_request_body (ctx w)
  /\ ctx_path c = ctx_path (ctx w)
  /\ ctx_method c = ctx_method (ctx w)
  /\ ctx_req c = ctx_req (ctx w)
  /\ server (world r) = server w.
Proof.
  intros r c page. subst c r page. unfold explorer.
  rewrite renderPlayground_page. cbn.
  split; [done|]. split; [done|].
  split; [by rewrite lookup_insert_ne, lookup_insert_eq|].
  split; [apply lookup_insert_eq|]. split; [done|].
  split; [|done]. intros k Htype Hlength. by rewrite !lookup_insert_ne.
Qed.

(** X16. A health-check callback that does not settle leaves the health
    request hanging: the handler is suspended after the one call to the
    callback, it has set the content type and nothing more, neither a body
    nor a status, and it does not run the continuation. *)
Theorem healthCheck_pending
    (check : Callback) (next : M unit) (w : World) :
  invocation (check (announced w)) = Returns Pending ->
  let c := check (announced w) in
  middlewareFromPath healthPath (healthCheck (Some check)) next w
  = if String.eqb (ctx_path (ctx w)) healthPath
    then mkResult Pending (invoked_world c)
           (CallOnHealthCheck :: invoked_trace c)
    else next w.
Proof.
  intros Hpending c. unfold middlewareFromPath.
  destruct (String.eqb _ _); [|done].
  rewrite healthCheck_callback. cbv zeta. by rewrite Hpending.
Qed.

Lemma healthCheck_pending_witness :
  middlewareFromPath healthPath (healthCheck (Some Cases.stalled))
    Sample.next (Sample.world (Sample.request healthPath "GET" ∅))
  = mkResult Pending
      (announced (Sample.world (Sample.request healthPath "GET" ∅)))
      [CallOnHealthCheck].
Proof.
  apply (healthCheck_pending Cases.stalled Sample.next
           (Sample.world (Sample.request healthPath "GET" ∅))).
  reflexivity.
Defined.

(** X17. A request to the health-check path, answered.  Without a callback
    the handler sets the pass body at once, and with it status 200 unless a
    status had been assigned before.  With a callback that returns a promise:
    when the promise fulfils, the pass body is set; when it rejects, for
    whatever reason, status 503 and the fail body are set and the handler
    completes normally; whatever the promise does, the handler's own promise
    is not rejected.  The continuation is never run. *)
Theorem healthCheck_answers
    (onHealthCheck : option Callback) (next : M unit) (w : World) :
  ctx_path (ctx w) = "/.well-known/apollo/server-health" ->
  let r :=
    middlewareFromPath "/.well-known/apollo/server-health"
      (healthCheck onHealthCheck) next w in
  let started :=
    mkWorld (with_header "Content-Type" "application/health+json" (ctx w))
            (server w) in
  let pass := BodyObject {[ "status" := JsString "pass" ]} in
  let fail := BodyObject {[ "status" := JsString "fail" ]} in
  ctx_headers (ctx started) !! "Content-Type" = Some "application/health+json"
  /\ (onHealthCheck = None ->
      r = mkResult (Fulfilled tt)
            (mkWorld (with_body pass (ctx started)) (server w)) []
      /\ ctx_body (ctx (world r)) = Some pass
      /\ ctx_status (ctx (world r))
         = (if ctx_explicitStatus (ctx w) then ctx_status (ctx w)
            else JsNumber 200))
  /\ (forall check,
        onHealthCheck = Some check ->
        let c := check started in
        (forall reason,
           invocation c = Returns (Rejected reason) ->
           r = mkResult (Fulfilled tt)
                 (mkWorld
                    (with_body fail
                       (with_status (JsNumber 503) (ctx (invoked_world c))))
                    (server (invoked_world c)))
                 (CallOnHealthCheck :: invoked_trace c)
           /\ ctx_status (ctx (world r)) = JsNumber 503
           /\ ctx_body (ctx (world r)) = Some fail)
        /\ (invocation c = Returns (Fulfilled tt) ->
            r = mkResult (Fulfilled tt)
                  (mkWorld (with_body pass (ctx (invoked_world c)))
                           (server (invoked_world c)))
                  (CallOnHealthCheck :: invoked_trace c)
            /\ ctx_body (ctx (world r)) = Some pass)
        /\ (forall promise reason,
              invocation c = Returns promise ->
              outcome r <> Rejected reason)).
Proof.
  intros Hpath r started pass fail. subst r started.
  fold (announced w). rewrite middlewareFromPath_match by done.
  split; [apply lookup_insert_eq|]. split.
  - intros ->. by rewrite healthCheck_plain.
  - intros check -> c. subst c. rewrite healthCheck_callback. cbv zeta.
    split; [|split].
    + intros reason Hrejects. by rewrite Hrejects.
    + intros Hfulfils. by rewrite Hfulfils.
    + intros promise reason Hreturns. rewrite Hreturns.
      by destruct promise.
Qed.

Lemma healthCheck_answers_witness :
  middlewareFromPath "/.well-known/apollo/server-health"
    (healthCheck (Some Sample.rejecting)) Sample.next
    (Sample.world (Sample.request "/.well-known/apollo/server-health" "GET" ∅))
  = mkResult (Fulfilled tt)
      (mkWorld
         (mkContext "/.well-known/apollo/server-health" "GET"
            (mkIncomingMessage ∅ "") None
            (JsNumber 503) true
            {[ "Content-Type" := "application/health+json" ]}
            (Some (BodyObject {[ "status" := JsString "fail" ]})))
         Sample.apollo)
      [CallOnHealthCheck].
Proof.
  pose proof (healthCheck_answers (Some Sample.rejecting) Sample.next
                (Sample.world
                   (Sample.request "/.well-known/apollo/server-health"
                      "GET" ∅))
                eq_refl) as (_ & _ & Hcallback).
  destruct (Hcallback Sample.rejecting eq_refl) as (Hrejects & _).
  exact (proj1 (Hrejects Sample.down eq_refl)).
Defined.
